(** * claude_code_setup: the greeting and sanitising helpers

    A shallow embedding of [core/main.py] and [utils/helpers.py].

    Python text is a sequence of Unicode code points, modelled as a list of
    [Z]; Python integers are unbounded and modelled as [Z].  The library
    operations the source calls ([re.sub] on a one-character class,
    [str.strip], [str.join], list repetition, [print]) are modelled by the
    behaviour CPython gives them.  A call either returns a value or raises:
    [result] carries the exception.  Lists and texts are unbounded, so no
    call runs out of memory. *)

From Stdlib Require Import ZArith List Bool Ascii String Lia.
From stdpp Require Import list.
Import ListNotations.

Local Open Scope Z_scope.

(** ** Text values *)

Abbreviation str := (list Z).

(** Code point of an ASCII character and the text of an ASCII literal. *)
Definition ord (a : ascii) : Z := Z.of_N (N_of_ascii a).

Fixpoint of_string (s : string) : str :=
  match s with
  | EmptyString => []
  | String a t => ord a :: of_string t
  end.

(** The empty text. *)
Definition empty : str := [].

(** Python's [len], an integer. *)
Definition len {A} (l : list A) : Z := Z.of_nat (length l).

(** ** Character classification *)

Module Unicode.

(** CPython's [Py_UNICODE_ISSPACE]: the code points that [str.strip()]
    removes and that the category [\s] of a text pattern matches. *)
Definition Py_UNICODE_ISSPACE (ch : Z) : bool :=
  ((0x09 <=? ch) && (ch <=? 0x0D))
  || ((0x1C <=? ch) && (ch <=? 0x20))
  || (ch =? 0x85) || (ch =? 0xA0) || (ch =? 0x1680)
  || ((0x2000 <=? ch) && (ch <=? 0x200A))
  || (ch =? 0x2028) || (ch =? 0x2029) || (ch =? 0x202F)
  || (ch =? 0x205F) || (ch =? 0x3000).

Definition is_ascii (ch : Z) : bool := (0 <=? ch) && (ch <=? 127).

Definition is_ascii_letter (ch : Z) : bool :=
  ((ord "a" <=? ch) && (ch <=? ord "z"))
  || ((ord "A" <=? ch) && (ch <=? ord "Z")).

Definition is_ascii_digit (ch : Z) : bool :=
  (ord "0" <=? ch) && (ch <=? ord "9").

End Unicode.
Export Unicode.

(** ** The fragment of [re] the sanitiser uses *)

Module Re.

(** Members of a bracketed set: a range [lo-hi] or the category [\s]. *)
Inductive set_item : Type :=
| Range (lo hi : Z)
| CategorySpace.

Record char_set : Type := CharSet { negate : bool; items : list set_item }.

Definition item_match (ch : Z) (it : set_item) : bool :=
  match it with
  | Range lo hi => (lo <=? ch) && (ch <=? hi)
  | CategorySpace => Py_UNICODE_ISSPACE ch
  end.

(** Does the one-character pattern [cs] match the character [ch]? *)
Definition set_match (cs : char_set) (ch : Z) : bool :=
  xorb (negate cs) (existsb (item_match ch) (items cs)).

(** [re.sub(cs, repl, s)] for a pattern that is a single bracketed set:
    every match is one character long, matches are found left to right,
    and each is replaced by [repl]. *)
Fixpoint sub (cs : char_set) (repl s : str) : str :=
  match s with
  | [] => []
  | ch :: rest =>
      if set_match cs ch then repl ++ sub cs repl rest
      else ch :: sub cs repl rest
  end.

End Re.

(** ** [str] methods *)

Module Str.

Fixpoint lstrip (s : str) : str :=
  match s with
  | [] => []
  | ch :: rest => if Py_UNICODE_ISSPACE ch then lstrip rest else s
  end.

Fixpoint rstrip (s : str) : str :=
  match s with
  | [] => []
  | ch :: rest =>
      match rstrip rest with
      | [] => if Py_UNICODE_ISSPACE ch then [] else [ch]
      | kept => ch :: kept
      end
  end.

(** [s.strip()]: whitespace is removed at both ends. *)
Definition strip (s : str) : str := rstrip (lstrip s).

(** [sep.join(parts)]. *)
Fixpoint join (sep : str) (parts : list str) : str :=
  match parts with
  | [] => []
  | [p] => p
  | p :: more => p ++ sep ++ join sep more
  end.

End Str.

(** ** Exceptions *)

Inductive exception : Type :=
| OverflowError.

(** A call that returns a value or raises. *)
Inductive result (A : Type) : Type :=
| Ok (value : A)
| Raise (e : exception).

Arguments Ok {A} value.
Arguments Raise {A} e.

(** The least value of CPython's index type [Py_ssize_t] (64-bit build). *)
Definition PY_SSIZE_T_MIN : Z := - 2 ^ 63.

(** [l * n] on a list.  The count is first converted to the index type: a
    count below its range raises [OverflowError] (cannot fit 'int' into an
    index-sized integer).  A count below zero is then treated as zero.  On
    the other side the lists of this model are unbounded: every count above
    the index range is also above the number of items a list can hold, the
    limit left out here together with the exhaustion of memory. *)
Definition list_mul {A} (l : list A) (n : Z) : result (list A) :=
  if n <? PY_SSIZE_T_MIN then Raise OverflowError
  else if n <? 0 then Ok []
  else Ok (concat (repeat l (Z.to_nat n))).

(** ** utils/helpers.py *)

(** The pattern [[^a-zA-Z0-9\s]]. *)
Definition special_chars : Re.char_set :=
  Re.CharSet true
    [Re.Range (ord "a") (ord "z"); Re.Range (ord "A") (ord "Z");
     Re.Range (ord "0") (ord "9"); Re.CategorySpace].

Definition sanitize_string (value : str) : str :=
  Str.strip (Re.sub special_chars empty value).

Definition validate_input {T} (value : option T) (default : T) : T :=
  match value with
  | Some v => v
  | None => default
  end.

(** ** core/main.py *)

Definition example_function (name : str) (count : Z) : result str :=
  let greeting := of_string "Hello, " ++ name ++ of_string "!" in
  match list_mul [greeting] count with
  | Ok copies => Ok (Str.join (of_string " ") copies)
  | Raise e => Raise e
  end.

(** The default of the parameter [count]. *)
Definition default_count : Z := 1.

(** The process as far as the program can change it: the text written to
    standard output so far. *)
Record world : Type := World { stdout : str }.

(** How a call ends. *)
Inductive completion : Type :=
| Returned
| Raised.

(** [print(s)]: the text and a line feed are appended to standard output. *)
Definition print (s : str) (w : world) : completion * world :=
  (Returned, World (stdout w ++ s ++ of_string (String "010" EmptyString))).

Definition main (w : world) : completion * world :=
  match example_function (of_string "World") default_count with
  | Ok text => print text w
  | Raise _ => (Raised, w)
  end.

(** Exit status of the interpreter after running the module as a script. *)
Definition exit_status (c : completion) : Z :=
  match c with
  | Returned => 0
  | Raised => 1
  end.

(** ** The specification's vocabulary *)

(** The permitted set: ASCII letters, ASCII digits and whitespace. *)
Definition permitted (ch : Z) : bool :=
  is_ascii_letter ch || is_ascii_digit ch || Py_UNICODE_ISSPACE ch.

Definition starts_with_space (s : str) : bool :=
  match s with
  | [] => false
  | ch :: _ => Py_UNICODE_ISSPACE ch
  end.

Fixpoint ends_with_space (s : str) : bool :=
  match s with
  | [] => false
  | [ch] => Py_UNICODE_ISSPACE ch
  | _ :: rest => ends_with_space rest
  end.

(** A text that sanitising has nothing to do on: permitted characters only,
    no whitespace at its start and none at its end. *)
Definition is_sanitized (s : str) : bool :=
  forallb permitted s && negb (starts_with_space s) && negb (ends_with_space s).

(** The characters the sanitiser keeps wherever they stand: ASCII letters and
    ASCII digits. *)
Definition is_alnum (ch : Z) : bool := is_ascii_letter ch || is_ascii_digit ch.

(** One greeting: the value of the local [greeting] of [example_function]. *)
Definition greeting (name : str) : str :=
  of_string "Hello, " ++ name ++ of_string "!".


(** The sanitiser in the specification's words: delete the characters
    outside the permitted set, keep the others in order, then remove the
    whitespace at the start and at the end. *)
Module Spec.

Definition delete_unpermitted (s : str) : str := List.filter permitted s.

Fixpoint skip_spaces (s : str) : str :=
  match s with
  | [] => []
  | ch :: rest => if Py_UNICODE_ISSPACE ch then skip_spaces rest else s
  end.

Definition trim (s : str) : str :=
  rev (skip_spaces (rev (skip_spaces s))).

Definition sanitize (s : str) : str := trim (delete_unpermitted s).

End Spec.

(** * Properties *)

(** ** Concrete runs from the test-suite *)

Example test_removes_special_characters :
  sanitize_string (of_string "Hello!@#World") = of_string "HelloWorld".
Proof. reflexivity. Qed.

Example test_preserves_alphanumeric :
  sanitize_string (of_string "Test123") = of_string "Test123".
Proof. reflexivity. Qed.

Example test_greeting_with_count :
  example_function (of_string "Claude") 3
  = Ok (of_string "Hello, Claude! Hello, Claude! Hello, Claude!").
Proof. reflexivity. Qed.

Example test_empty_name :
  example_function empty default_count = Ok (of_string "Hello, !").
Proof. reflexivity. Qed.

Example test_sanitized_greeting :
  example_function (sanitize_string (of_string "Claude!@#$%")) default_count
  = Ok (of_string "Hello, Claude!").
Proof. reflexivity. Qed.

Example test_works_with_different_types :
  validate_input (Some 42) 0 = 42
  /\ validate_input None 0 = 0
  /\ validate_input (Some [1; 2]) [] = [1; 2].
Proof. repeat split. Qed.

(** ** The pattern and the permitted set *)

Lemma special_chars_match (ch : Z) :
  Re.set_match special_chars ch = negb (permitted ch).
Proof.
  unfold Re.set_match, special_chars, permitted, is_ascii_letter, is_ascii_digit.
  cbn [Re.negate Re.items existsb Re.item_match].
  destruct (Py_UNICODE_ISSPACE ch);
    destruct (ord "a" <=? ch), (ch <=? ord "z"),
             (ord "A" <=? ch), (ch <=? ord "Z"),
             (ord "0" <=? ch), (ch <=? ord "9"); reflexivity.
Qed.

Lemma sub_special_chars (s : str) :
  Re.sub special_chars empty s = List.filter permitted s.
Proof.
  induction s as [|ch rest IH]; [reflexivity|].
  cbn [Re.sub List.filter]. rewrite special_chars_match, IH.
  destruct (permitted ch); reflexivity.
Qed.

Lemma filter_permitted_id (s : str) :
  forallb permitted s = true -> List.filter permitted s = s.
Proof.
  induction s as [|ch rest IH]; cbn [forallb List.filter]; [reflexivity|].
  intros H. apply andb_true_iff in H as [Hch Hrest].
  rewrite Hch, IH by assumption. reflexivity.
Qed.

Lemma forallb_filter_permitted (s : str) :
  forallb permitted (List.filter permitted s) = true.
Proof.
  induction s as [|ch rest IH]; [reflexivity|].
  cbn [List.filter]. destruct (permitted ch) eqn:E; [|assumption].
  cbn [forallb]. rewrite E, IH. reflexivity.
Qed.

(** ** Stripping *)

Section Strip.

Import Str.

Lemma lstrip_split (s : str) :
  exists sp, s = sp ++ lstrip s /\ forallb Py_UNICODE_ISSPACE sp = true.
Proof.
  induction s as [|ch rest (sp & Hs & Hsp)].
  - exists []. split; reflexivity.
  - cbn [lstrip]. destruct (Py_UNICODE_ISSPACE ch) eqn:E.
    + exists (ch :: sp). split.
      * cbn [app]. f_equal. exact Hs.
      * cbn [forallb]. rewrite E, Hsp. reflexivity.
    + exists []. split; reflexivity.
Qed.

Lemma rstrip_split (s : str) :
  exists sp, s = rstrip s ++ sp /\ forallb Py_UNICODE_ISSPACE sp = true.
Proof.
  induction s as [|ch rest (sp & Hs & Hsp)].
  - exists []. split; reflexivity.
  - cbn [rstrip]. destruct (rstrip rest) as [|k kept] eqn:Ek.
    + cbn [app] in Hs. subst sp.
      destruct (Py_UNICODE_ISSPACE ch) eqn:E.
      * exists (ch :: rest). split; [reflexivity|].
        cbn [forallb]. rewrite E, Hsp. reflexivity.
      * exists rest. split; [reflexivity | assumption].
    + exists sp. split; [|assumption].
      cbn [app]. f_equal. exact Hs.
Qed.

Lemma lstrip_starts (s : str) : starts_with_space (lstrip s) = false.
Proof.
  induction s as [|ch rest IH]; [reflexivity|].
  cbn [lstrip]. destruct (Py_UNICODE_ISSPACE ch) eqn:E; [assumption|].
  cbn [starts_with_space]. exact E.
Qed.

Lemma rstrip_ends (s : str) : ends_with_space (rstrip s) = false.
Proof.
  induction s as [|ch rest IH]; [reflexivity|].
  cbn [rstrip]. destruct (rstrip rest) as [|k kept] eqn:Ek.
  - destruct (Py_UNICODE_ISSPACE ch) eqn:E; [reflexivity|].
    cbn [ends_with_space]. exact E.
  - exact IH.
Qed.

Lemma rstrip_starts (s : str) :
  starts_with_space s = false -> starts_with_space (rstrip s) = false.
Proof.
  destruct s as [|ch rest]; [reflexivity|].
  cbn [starts_with_space rstrip]. intros E.
  destruct (rstrip rest); [rewrite E|]; exact E.
Qed.

Lemma lstrip_id (s : str) : starts_with_space s = false -> lstrip s = s.
Proof.
  destruct s as [|ch rest]; [reflexivity|].
  cbn [starts_with_space lstrip]. intros ->. reflexivity.
Qed.

Lemma rstrip_id (s : str) : ends_with_space s = false -> rstrip s = s.
Proof.
  induction s as [|ch rest IH]; [reflexivity|].
  destruct rest as [|k rest'].
  - cbn [ends_with_space rstrip]. intros ->. reflexivity.
  - intros E. change (ends_with_space (k :: rest') = false) in E.
    cbn [rstrip] in IH |- *. rewrite (IH E). reflexivity.
Qed.

Lemma strip_starts (s : str) : starts_with_space (strip s) = false.
Proof. apply rstrip_starts, lstrip_starts. Qed.

Lemma strip_ends (s : str) : ends_with_space (strip s) = false.
Proof. apply rstrip_ends. Qed.

Lemma strip_id (s : str) :
  starts_with_space s = false -> ends_with_space s = false -> strip s = s.
Proof.
  intros Hs He. unfold strip. rewrite (lstrip_id s Hs). apply rstrip_id, He.
Qed.

(** Stripping removes a run of whitespace at each end and nothing else. *)
Lemma strip_split (s : str) :
  exists l r, s = l ++ strip s ++ r
    /\ forallb Py_UNICODE_ISSPACE l = true
    /\ forallb Py_UNICODE_ISSPACE r = true.
Proof.
  destruct (lstrip_split s) as (l & Hl & Hsl).
  destruct (rstrip_split (lstrip s)) as (r & Hr & Hsr).
  exists l, r. unfold strip. rewrite <- Hr. auto.
Qed.

Lemma forallb_strip (P : Z -> bool) (s : str) :
  forallb P s = true -> forallb P (strip s) = true.
Proof.
  destruct (strip_split s) as (l & r & Hs & _). intros H.
  rewrite Hs in H. rewrite !forallb_app in H.
  apply andb_true_iff in H as [_ H]. apply andb_true_iff in H as [H _].
  exact H.
Qed.

Lemma strip_sublist (s : str) : strip s `sublist_of` s.
Proof.
  destruct (strip_split s) as (l & r & Hs & _).
  rewrite Hs at 2. apply sublist_inserts_l, sublist_inserts_r. reflexivity.
Qed.

End Strip.

(** ** The code's stripping and the specification's trimming agree *)

Lemma lstrip_skip_spaces (s : str) : Str.lstrip s = Spec.skip_spaces s.
Proof.
  induction s as [|ch rest IH]; [reflexivity|].
  cbn [Str.lstrip Spec.skip_spaces]. rewrite IH. reflexivity.
Qed.

Lemma skip_spaces_snoc (s : str) (ch : Z) :
  Spec.skip_spaces (s ++ [ch]) =
  match Spec.skip_spaces s with
  | [] => if Py_UNICODE_ISSPACE ch then [] else [ch]
  | kept => kept ++ [ch]
  end.
Proof.
  induction s as [|c rest IH].
  - cbn. destruct (Py_UNICODE_ISSPACE ch); reflexivity.
  - cbn [app Spec.skip_spaces].
    destruct (Py_UNICODE_ISSPACE c); [exact IH | reflexivity].
Qed.

Lemma rstrip_rev (s : str) : Str.rstrip s = rev (Spec.skip_spaces (rev s)).
Proof.
  induction s as [|ch rest IH]; [reflexivity|].
  cbn [Str.rstrip rev]. rewrite skip_spaces_snoc, IH.
  destruct (Spec.skip_spaces (rev rest)) as [|k kept].
  - cbn [rev]. destruct (Py_UNICODE_ISSPACE ch); reflexivity.
  - rewrite rev_app_distr. cbn [rev app].
    destruct (rev kept ++ [k]) eqn:E; [|reflexivity].
    apply app_eq_nil in E as [_ E]. discriminate E.
Qed.

Lemma strip_trim (s : str) : Str.strip s = Spec.trim s.
Proof.
  unfold Str.strip, Spec.trim. rewrite rstrip_rev.
  destruct (lstrip_skip_spaces s). reflexivity.
Qed.

Lemma filter_sublist (p : Z -> bool) (s : str) : List.filter p s `sublist_of` s.
Proof.
  induction s as [|ch rest IH]; cbn [List.filter]; [constructor|].
  destruct (p ch); constructor; exact IH.
Qed.

Lemma sanitize_string_unfold (x : str) :
  sanitize_string x = Str.strip (List.filter permitted x).
Proof. unfold sanitize_string. rewrite sub_special_chars. reflexivity. Qed.

Lemma sanitize_string_permitted (x : str) :
  forallb permitted (sanitize_string x) = true.
Proof.
  rewrite sanitize_string_unfold.
  apply forallb_strip, forallb_filter_permitted.
Qed.

Lemma sanitize_string_fixed (x : str) :
  is_sanitized x = true -> sanitize_string x = x.
Proof.
  unfold is_sanitized. intros H.
  apply andb_true_iff in H as [H He]. apply andb_true_iff in H as [Hp Hs].
  apply negb_true_iff in He, Hs.
  rewrite sanitize_string_unfold, (filter_permitted_id x Hp).
  apply strip_id; assumption.
Qed.

Lemma sanitize_string_is_sanitized (x : str) :
  is_sanitized (sanitize_string x) = true.
Proof.
  unfold is_sanitized. rewrite sanitize_string_permitted.
  rewrite sanitize_string_unfold, strip_starts, strip_ends.
  reflexivity.
Qed.

(** ** Repetition and joining *)

Lemma concat_repeat_singleton {A} (a : A) (k : nat) :
  concat (repeat [a] k) = repeat a k.
Proof. induction k as [|k IH]; cbn; [|rewrite IH]; reflexivity. Qed.

Lemma list_mul_singleton {A} (a : A) (n : Z) :
  0 <= n -> list_mul [a] n = Ok (repeat a (Z.to_nat n)).
Proof.
  intros Hn. unfold list_mul, PY_SSIZE_T_MIN.
  destruct (Z.ltb_spec n (- 2 ^ 63)); [lia|].
  destruct (Z.ltb_spec n 0); [lia|].
  rewrite concat_repeat_singleton. reflexivity.
Qed.

Lemma list_mul_nonpositive {A} (l : list A) (n : Z) :
  PY_SSIZE_T_MIN <= n <= 0 -> list_mul l n = Ok [].
Proof.
  intros [Hmin Hn]. unfold list_mul.
  destruct (Z.ltb_spec n PY_SSIZE_T_MIN); [lia|].
  destruct (n <? 0); [reflexivity|].
  replace (Z.to_nat n) with 0%nat by lia. reflexivity.
Qed.

Lemma list_mul_overflow {A} (l : list A) (n : Z) :
  n < PY_SSIZE_T_MIN -> list_mul l n = Raise OverflowError.
Proof.
  intros Hn. unfold list_mul.
  destruct (Z.ltb_spec n PY_SSIZE_T_MIN); [reflexivity | lia].
Qed.

Lemma join_repeat (sep g : str) (k : nat) :
  Str.join sep (repeat g (S k)) = g ++ concat (repeat (sep ++ g) k).
Proof.
  induction k as [|k IH].
  - cbn. rewrite app_nil_r. reflexivity.
  - cbn [repeat] in IH |- *.
    change (Str.join sep (g :: g :: repeat g k))
      with (g ++ sep ++ Str.join sep (g :: repeat g k)).
    rewrite IH. cbn [concat]. rewrite <- app_assoc. reflexivity.
Qed.

Lemma length_concat_repeat {A} (l : list A) (k : nat) :
  length (concat (repeat l k)) = (k * length l)%nat.
Proof.
  induction k as [|k IH]; [reflexivity|].
  cbn [repeat concat]. rewrite length_app, IH. reflexivity.
Qed.

Lemma example_function_positive (name : str) (k : nat) :
  example_function name (Z.of_nat (S k)) =
  let greeting := of_string "Hello, " ++ name ++ of_string "!" in
  Ok (greeting ++ concat (repeat (of_string " " ++ greeting) k)).
Proof.
  unfold example_function. cbv zeta.
  rewrite list_mul_singleton by lia. rewrite Nat2Z.id.
  f_equal. apply join_repeat.
Qed.

(** * The claims *)

(** ** The sanitiser *)

(** C1. For every text [x], every character of [sanitize_string x] is an
    ASCII letter, an ASCII digit or a whitespace character, and
    [sanitize_string x] has no whitespace at its start and none at its
    end. *)
Theorem sanitize_string_alphanumeric_trimmed (x : str) :
  Forall (fun ch => is_ascii_letter ch = true
                    \/ is_ascii_digit ch = true
                    \/ Py_UNICODE_ISSPACE ch = true) (sanitize_string x)
  /\ starts_with_space (sanitize_string x) = false
  /\ ends_with_space (sanitize_string x) = false.
Proof.
  split.
  - apply List.Forall_forall. intros ch Hin.
    pose proof (sanitize_string_permitted x) as Hp.
    rewrite List.forallb_forall in Hp. specialize (Hp ch Hin).
    unfold permitted in Hp.
    apply orb_true_iff in Hp as [Hp|Hp]; [|auto].
    apply orb_true_iff in Hp as [Hp|Hp]; auto.
  - rewrite sanitize_string_unfold. split.
    + apply strip_starts.
    + apply strip_ends.
Qed.

(** C2. Sanitising is idempotent: for every text [x],
    [sanitize_string (sanitize_string x) = sanitize_string x]; and a text
    that is already sanitised (permitted characters only, no whitespace at
    either end) is returned unchanged. *)
Theorem sanitize_string_idempotent (x : str) :
  sanitize_string (sanitize_string x) = sanitize_string x
  /\ (is_sanitized x = true -> sanitize_string x = x).
Proof.
  split.
  - apply sanitize_string_fixed, sanitize_string_is_sanitized.
  - apply sanitize_string_fixed.
Qed.

Lemma sanitize_string_idempotent_witness :
  is_sanitized (of_string "Hello World") = true
  /\ sanitize_string (of_string "Hello World") = of_string "Hello World".
Proof.
  split; [reflexivity|].
  apply (proj2 (sanitize_string_idempotent (of_string "Hello World"))).
  reflexivity.
Defined.

(** C3. For every text [x], [sanitize_string x] is [x] with exactly the
    characters outside the permitted set deleted and then the whitespace at
    both ends removed, as the specification words it ([Spec.sanitize]); the
    characters kept are in their original order; of the permitted characters
    only a run of whitespace at the start and one at the end are dropped, so
    whitespace inside is kept as it is, several spaces in a row included. *)
Theorem sanitize_string_deletes_then_trims (x : str) :
  sanitize_string x = Spec.sanitize x
  /\ sanitize_string x `sublist_of` x
  /\ (exists l r,
        List.filter permitted x = l ++ sanitize_string x ++ r
        /\ forallb Py_UNICODE_ISSPACE l = true
        /\ forallb Py_UNICODE_ISSPACE r = true)
  /\ sanitize_string (of_string "Hello World") = of_string "Hello World"
  /\ sanitize_string (of_string " a  b, c   d! ") = of_string "a  b c   d".
Proof.
  repeat split.
  - rewrite sanitize_string_unfold. apply strip_trim.
  - rewrite sanitize_string_unfold.
    transitivity (List.filter permitted x);
      [apply strip_sublist | apply filter_sublist].
  - rewrite sanitize_string_unfold. apply strip_split.
Qed.

(** C8. Sanitising never lengthens its input. *)
Theorem sanitize_string_length (x : str) :
  len (sanitize_string x) <= len x.
Proof.
  unfold len. apply Nat2Z.inj_le, sublist_length.
  rewrite sanitize_string_unfold.
  transitivity (List.filter permitted x);
    [apply strip_sublist | apply filter_sublist].
Qed.

(** C10. The output of [sanitize_string] is not restricted to ASCII: in
    the text of [a], a no-break space (U+00A0) and [b], the no-break space is
    kept, since the pattern matches no whitespace character, ASCII or
    not. *)
Theorem sanitize_string_keeps_unicode_space :
  let x := [ord "a"; 0xA0; ord "b"] in
  sanitize_string x = x
  /\ In 0xA0 (sanitize_string x)
  /\ is_ascii 0xA0 = false
  /\ Py_UNICODE_ISSPACE 0xA0 = true
  /\ forall ch, Py_UNICODE_ISSPACE ch && Re.set_match special_chars ch = false.
Proof.
  cbv zeta. repeat split.
  - vm_compute. right; left; reflexivity.
  - intros ch. rewrite special_chars_match. unfold permitted.
    destruct (Py_UNICODE_ISSPACE ch); [|reflexivity].
    rewrite orb_true_r. reflexivity.
Qed.

(** ** The default helper *)

(** C6. [validate_input] returns the value itself when one is present and
    the default when it is absent; it is total, so it never fails. *)
Theorem validate_input_value_or_default {T} (v d : T) :
  validate_input (Some v) d = v /\ validate_input None d = d.
Proof. split; reflexivity. Qed.

(** ** The greeter *)

(** C4. For [n >= 1], [example_function name n] is [n] copies of
    ["Hello, " + name + "!"] with one space between neighbours, and
    [example_function name 1] is the greeting itself. *)
Theorem example_function_copies (name : str) (n : Z) :
  1 <= n ->
  let greeting := of_string "Hello, " ++ name ++ of_string "!" in
  example_function name n
  = Ok (greeting
        ++ concat (repeat (of_string " " ++ greeting) (Z.to_nat (n - 1))))
  /\ (exists copies,
        len copies = n
        /\ Forall (eq greeting) copies
        /\ example_function name n = Ok (Str.join (of_string " ") copies))
  /\ example_function name 1 = Ok greeting.
Proof.
  intros Hn greeting.
  assert (Hk : n = Z.of_nat (S (Z.to_nat (n - 1)))) by lia.
  split; [|split].
  - rewrite Hk at 1. apply example_function_positive.
  - exists (repeat greeting (Z.to_nat n)). split; [|split].
    + unfold len. rewrite repeat_length. lia.
    + apply List.Forall_forall. intros g Hg.
      symmetry. exact (repeat_spec _ _ _ Hg).
    + unfold example_function. cbv zeta.
      rewrite list_mul_singleton by lia. reflexivity.
  - unfold example_function, greeting. cbn. reflexivity.
Qed.

Lemma example_function_copies_witness :
  1 <= 2
  /\ example_function (of_string "Bob") 2
     = Ok (of_string "Hello, Bob! Hello, Bob!").
Proof.
  split; [lia|].
  exact (proj1 (example_function_copies (of_string "Bob") 2 ltac:(lia))).
Defined.

(** C5, as the code has it.  For a count of zero or below that fits the
    index type ([PY_SSIZE_T_MIN <= count <= 0]), [example_function] returns
    the empty text; for a count below [PY_SSIZE_T_MIN] the repetition of the
    list raises [OverflowError] and no text is returned. *)
Theorem example_function_nonpositive (name : str) (count : Z) :
  (PY_SSIZE_T_MIN <= count <= 0 -> example_function name count = Ok empty)
  /\ (count < PY_SSIZE_T_MIN ->
      example_function name count = Raise OverflowError).
Proof.
  unfold example_function. cbv zeta. split; intros Hc.
  - rewrite list_mul_nonpositive by assumption. reflexivity.
  - rewrite list_mul_overflow by assumption. reflexivity.
Qed.

Lemma example_function_nonpositive_witness :
  (PY_SSIZE_T_MIN <= -3 <= 0
   /\ example_function (of_string "Bob") (-3) = Ok empty)
  /\ (- 2 ^ 64 < PY_SSIZE_T_MIN
      /\ example_function (of_string "Bob") (- 2 ^ 64) = Raise OverflowError).
Proof.
  split.
  - split; [unfold PY_SSIZE_T_MIN; lia|].
    apply (proj1 (example_function_nonpositive (of_string "Bob") (-3))).
    unfold PY_SSIZE_T_MIN. lia.
  - split; [unfold PY_SSIZE_T_MIN; lia|].
    apply (proj2 (example_function_nonpositive (of_string "Bob") (- 2 ^ 64))).
    unfold PY_SSIZE_T_MIN. lia.
Defined.

(** C5 as it is claimed fails: the count [-2^63 - 1] is zero or below, and
    at it [example_function] raises [OverflowError] instead of returning the
    empty text. *)
Lemma example_function_nonpositive_counterexample :
  -9223372036854775809 <= 0
  /\ example_function (of_string "Bob") (-9223372036854775809)
     = Raise OverflowError
  /\ example_function (of_string "Bob") (-9223372036854775809) <> Ok empty.
Proof.
  split; [lia|]. split; [reflexivity|]. discriminate.
Qed.

(** C9. For [n >= 1], the length of [example_function name n] is
    [n * (len name + 8) + (n - 1)]: [8] is the length of ["Hello, "] and
    ["!"] together, and [n - 1] counts the spaces between the copies. *)
Theorem example_function_length (name : str) (n : Z) :
  1 <= n ->
  len (of_string "Hello, ") + len (of_string "!") = 8
  /\ exists text,
       example_function name n = Ok text
       /\ len text = n * (len name + 8) + (n - 1).
Proof.
  intros Hn. split; [reflexivity|].
  assert (Hk : n = Z.of_nat (S (Z.to_nat (n - 1)))) by lia.
  eexists. split.
  - rewrite Hk at 1. rewrite example_function_positive. cbv zeta. reflexivity.
  - unfold len. rewrite !length_app, length_concat_repeat, !length_app.
    cbn [of_string length]. lia.
Qed.

Lemma example_function_length_witness :
  1 <= 3
  /\ exists text,
       example_function (of_string "Claude") 3 = Ok text
       /\ len text = 3 * (len (of_string "Claude") + 8) + (3 - 1).
Proof.
  split; [lia|].
  apply (example_function_length (of_string "Claude") 3). lia.
Defined.

(** ** The entry point *)

(** C7. [main] takes no argument; whatever standard output holds before,
    the call returns normally after printing the line [Hello, World!] (the
    text followed by the line feed of [print]), so the exit status is 0;
    the text it prints, [example_function "World"], is ["Hello, World!"]. *)
Theorem main_prints_hello_world (w : world) :
  example_function (of_string "World") default_count
  = Ok (of_string "Hello, World!")
  /\ main w = (Returned, World (stdout w ++ of_string "Hello, World!" ++ [10]))
  /\ exit_status (fst (main w)) = 0.
Proof. repeat split. Qed.

(** * Further properties of the sanitiser *)

Lemma permitted_alnum_or_space (ch : Z) :
  permitted ch = is_alnum ch || Py_UNICODE_ISSPACE ch.
Proof. reflexivity. Qed.

Lemma alnum_not_space (ch : Z) :
  is_alnum ch = true -> Py_UNICODE_ISSPACE ch = false.
Proof.
  unfold is_alnum, is_ascii_letter, is_ascii_digit, Py_UNICODE_ISSPACE.
  change (ord "a") with 97. change (ord "z") with 122.
  change (ord "A") with 65. change (ord "Z") with 90.
  change (ord "0") with 48. change (ord "9") with 57.
  intros H. apply not_true_is_false. intros Hs.
  repeat rewrite ?orb_true_iff, ?andb_true_iff, ?Z.leb_le, ?Z.eqb_eq in H.
  repeat rewrite ?orb_true_iff, ?andb_true_iff, ?Z.leb_le, ?Z.eqb_eq in Hs.
  lia.
Qed.

Lemma filter_alnum_spaces (sp : str) :
  forallb Py_UNICODE_ISSPACE sp = true -> List.filter is_alnum sp = [].
Proof.
  induction sp as [|ch rest IH]; cbn [forallb List.filter]; [reflexivity|].
  intros H. apply andb_true_iff in H as [Hch Hrest].
  destruct (is_alnum ch) eqn:E.
  - apply alnum_not_space in E. congruence.
  - apply IH, Hrest.
Qed.

Lemma filter_alnum_permitted (s : str) :
  List.filter is_alnum (List.filter permitted s) = List.filter is_alnum s.
Proof.
  induction s as [|ch rest IH]; [reflexivity|].
  cbn [List.filter]. rewrite permitted_alnum_or_space.
  destruct (is_alnum ch) eqn:E; cbn [orb].
  - cbn [List.filter]. rewrite E, IH. reflexivity.
  - destruct (Py_UNICODE_ISSPACE ch); [cbn [List.filter]; rewrite E|]; exact IH.
Qed.

Lemma filter_alnum_sanitize_string (x : str) :
  List.filter is_alnum (sanitize_string x) = List.filter is_alnum x.
Proof.
  rewrite <- (filter_alnum_permitted x), sanitize_string_unfold.
  destruct (strip_split (List.filter permitted x)) as (l & r & Hs & Hl & Hr).
  rewrite Hs at 2. rewrite !List.filter_app.
  rewrite (filter_alnum_spaces l Hl), (filter_alnum_spaces r Hr).
  rewrite app_nil_r. reflexivity.
Qed.

Lemma lstrip_spaces (sp : str) :
  forallb Py_UNICODE_ISSPACE sp = true -> Str.lstrip sp = [].
Proof.
  induction sp as [|ch rest IH]; cbn [forallb Str.lstrip]; [reflexivity|].
  intros H. apply andb_true_iff in H as [-> Hrest]. apply IH, Hrest.
Qed.

Lemma rstrip_spaces (sp : str) :
  forallb Py_UNICODE_ISSPACE sp = true -> Str.rstrip sp = [].
Proof.
  induction sp as [|ch rest IH]; cbn [forallb Str.rstrip]; [reflexivity|].
  intros H. apply andb_true_iff in H as [-> Hrest].
  rewrite (IH Hrest). reflexivity.
Qed.

Lemma lstrip_app_spaces_l (sp s : str) :
  forallb Py_UNICODE_ISSPACE sp = true -> Str.lstrip (sp ++ s) = Str.lstrip s.
Proof.
  induction sp as [|ch rest IH]; cbn [forallb app Str.lstrip]; [reflexivity|].
  intros H. apply andb_true_iff in H as [-> Hrest]. apply IH, Hrest.
Qed.

Lemma rstrip_app_spaces_r (s sp : str) :
  forallb Py_UNICODE_ISSPACE sp = true -> Str.rstrip (s ++ sp) = Str.rstrip s.
Proof.
  intros Hsp. induction s as [|ch rest IH].
  - cbn [app]. rewrite (rstrip_spaces sp Hsp). reflexivity.
  - cbn [app Str.rstrip]. rewrite IH. reflexivity.
Qed.

Lemma lstrip_app_r (s t : str) :
  Str.lstrip (s ++ t) =
  match Str.lstrip s with
  | [] => Str.lstrip t
  | kept => kept ++ t
  end.
Proof.
  induction s as [|ch rest IH]; cbn [app Str.lstrip].
  - reflexivity.
  - destruct (Py_UNICODE_ISSPACE ch); [exact IH | reflexivity].
Qed.

Lemma strip_app_spaces (l s r : str) :
  forallb Py_UNICODE_ISSPACE l = true ->
  forallb Py_UNICODE_ISSPACE r = true ->
  Str.strip (l ++ s ++ r) = Str.strip s.
Proof.
  intros Hl Hr. unfold Str.strip.
  rewrite (lstrip_app_spaces_l l _ Hl), lstrip_app_r.
  destruct (Str.lstrip s) as [|k kept].
  - rewrite (lstrip_spaces r Hr). reflexivity.
  - apply rstrip_app_spaces_r, Hr.
Qed.

Lemma filter_permitted_spaces (sp : str) :
  forallb Py_UNICODE_ISSPACE sp = true -> List.filter permitted sp = sp.
Proof.
  intros H. apply filter_permitted_id.
  rewrite List.forallb_forall in H |- *. intros ch Hin.
  rewrite permitted_alnum_or_space, (H ch Hin). apply orb_true_r.
Qed.

Lemma filter_none (p : Z -> bool) (s : str) :
  forallb (fun ch => negb (p ch)) s = true -> List.filter p s = [].
Proof.
  induction s as [|ch rest IH]; cbn [forallb List.filter]; [reflexivity|].
  intros H. apply andb_true_iff in H as [Hch Hrest].
  apply negb_true_iff in Hch. rewrite Hch. apply IH, Hrest.
Qed.

Lemma filter_nil_none (p : Z -> bool) (s : str) :
  List.filter p s = [] -> forallb (fun ch => negb (p ch)) s = true.
Proof.
  induction s as [|ch rest IH]; cbn [forallb List.filter]; [reflexivity|].
  destruct (p ch); [discriminate|]. exact IH.
Qed.

Lemma sublist_same_length {A} (l k : list A) :
  l `sublist_of` k -> length l = length k -> l = k.
Proof.
  induction 1 as [|a l k Hsub IH|a l k Hsub IH]; cbn [length]; intros Hlen.
  - reflexivity.
  - f_equal. apply IH. lia.
  - apply sublist_length in Hsub. lia.
Qed.

Lemma sanitize_string_sublist (x : str) : sanitize_string x `sublist_of` x.
Proof.
  rewrite sanitize_string_unfold.
  transitivity (List.filter permitted x);
    [apply strip_sublist | apply filter_sublist].
Qed.

(** X1. The texts [sanitize_string] returns unchanged are exactly those made
    of permitted characters with no whitespace at either end; every other
    text is changed. *)
Theorem sanitize_string_unchanged_iff (x : str) :
  bool_decide (sanitize_string x = x) = is_sanitized x.
Proof.
  destruct (is_sanitized x) eqn:E.
  - apply bool_decide_eq_true, sanitize_string_fixed, E.
  - apply bool_decide_eq_false. intros Hfix.
    pose proof (sanitize_string_is_sanitized x) as Hs.
    rewrite Hfix in Hs. congruence.
Qed.

(** X2. [sanitize_string x] is the empty text exactly when [x] holds no ASCII
    letter and no ASCII digit: punctuation, whitespace and non-ASCII letters
    alone sanitise to nothing. *)
Theorem sanitize_string_empty_iff (x : str) :
  bool_decide (sanitize_string x = empty)
  = forallb (fun ch => negb (is_alnum ch)) x.
Proof.
  destruct (forallb (fun ch => negb (is_alnum ch)) x) eqn:E.
  - apply bool_decide_eq_true.
    assert (Hsp : forallb Py_UNICODE_ISSPACE (List.filter permitted x) = true).
    { apply List.forallb_forall. intros ch Hin.
      apply List.filter_In in Hin as [Hin Hp].
      rewrite List.forallb_forall in E. specialize (E ch Hin).
      apply negb_true_iff in E.
      rewrite permitted_alnum_or_space, E in Hp. exact Hp. }
    rewrite sanitize_string_unfold. unfold Str.strip.
    rewrite (lstrip_spaces _ Hsp). reflexivity.
  - apply bool_decide_eq_false. intros Hempty.
    pose proof (filter_alnum_sanitize_string x) as Hk.
    rewrite Hempty in Hk. symmetry in Hk.
    apply filter_nil_none in Hk. congruence.
Qed.

(** X3. Sanitising loses no letter and no digit: the ASCII letters and
    digits of [sanitize_string x], in order, are those of [x]. *)
Theorem sanitize_string_keeps_alnum (x : str) :
  List.filter is_alnum (sanitize_string x) = List.filter is_alnum x.
Proof. exact (filter_alnum_sanitize_string x). Qed.

(** X4. Characters outside the permitted set have no effect on the result,
    wherever they stand: a run of them can be inserted or removed without
    changing [sanitize_string]. *)
Theorem sanitize_string_ignores_unpermitted (a junk b : str) :
  forallb (fun ch => negb (permitted ch)) junk = true ->
  sanitize_string (a ++ junk ++ b) = sanitize_string (a ++ b).
Proof.
  intros Hj. rewrite !sanitize_string_unfold, !List.filter_app.
  rewrite (filter_none permitted junk Hj). reflexivity.
Qed.

Lemma sanitize_string_ignores_unpermitted_witness :
  forallb (fun ch => negb (permitted ch)) (of_string "!@#") = true
  /\ sanitize_string (of_string "Hello" ++ of_string "!@#" ++ of_string "World")
     = sanitize_string (of_string "Hello" ++ of_string "World").
Proof.
  split; [reflexivity|].
  apply (sanitize_string_ignores_unpermitted
           (of_string "Hello") (of_string "!@#") (of_string "World")).
  reflexivity.
Defined.

(** X5. Whitespace around a text has no effect on the result: padding [x]
    with whitespace on the left and on the right leaves [sanitize_string]
    unchanged. *)
Theorem sanitize_string_ignores_padding (l x r : str) :
  forallb Py_UNICODE_ISSPACE l = true ->
  forallb Py_UNICODE_ISSPACE r = true ->
  sanitize_string (l ++ x ++ r) = sanitize_string x.
Proof.
  intros Hl Hr. rewrite !sanitize_string_unfold, !List.filter_app.
  rewrite (filter_permitted_spaces l Hl), (filter_permitted_spaces r Hr).
  apply strip_app_spaces; assumption.
Qed.

Lemma sanitize_string_ignores_padding_witness :
  forallb Py_UNICODE_ISSPACE (of_string "  ") = true
  /\ forallb Py_UNICODE_ISSPACE [9; 10] = true
  /\ sanitize_string (of_string "  " ++ of_string "a b!" ++ [9; 10])
     = sanitize_string (of_string "a b!").
Proof.
  split; [reflexivity|]. split; [reflexivity|].
  apply (sanitize_string_ignores_padding (of_string "  ") (of_string "a b!") [9; 10]);
    reflexivity.
Defined.

(** X6. Sanitising keeps the length of a text exactly when the text is already
    sanitised; any other text comes out strictly shorter. *)
Theorem sanitize_string_same_length (x : str) :
  (len (sanitize_string x) =? len x) = is_sanitized x
  /\ (len (sanitize_string x) <? len x) = negb (is_sanitized x).
Proof.
  assert (Hle : (length (sanitize_string x) <= length x)%nat)
    by apply sublist_length, sanitize_string_sublist.
  assert (Heq : (len (sanitize_string x) =? len x) = is_sanitized x).
  { destruct (is_sanitized x) eqn:E.
    - rewrite (sanitize_string_fixed x E). apply Z.eqb_refl.
    - apply Z.eqb_neq. unfold len. intros Hlen.
      apply Nat2Z.inj in Hlen.
      pose proof (sublist_same_length _ _ (sanitize_string_sublist x) Hlen) as Hfix.
      pose proof (sanitize_string_is_sanitized x) as Hs.
      rewrite Hfix in Hs. congruence. }
  split; [exact Heq|].
  rewrite <- Heq. unfold len.
  destruct (Z.eqb_spec (Z.of_nat (length (sanitize_string x))) (Z.of_nat (length x)));
    cbn [negb]; [apply Z.ltb_ge | apply Z.ltb_lt]; lia.
Qed.

(** * Further properties of the greeter *)

Lemma Ok_inj {A} (a b : A) : Ok a = Ok b -> a = b.
Proof. intros H. injection H as H. exact H. Qed.

Lemma example_function_closed (name : str) (n : Z) :
  1 <= n ->
  example_function name n
  = Ok (greeting name
        ++ concat (repeat (of_string " " ++ greeting name) (Z.to_nat (n - 1)))).
Proof.
  intros Hn.
  assert (Hk : n = Z.of_nat (S (Z.to_nat (n - 1)))) by lia.
  rewrite Hk at 1. apply example_function_positive.
Qed.

Lemma concat_repeat_shift {A} (a b : list A) (k : nat) :
  a ++ concat (repeat (b ++ a) k) = concat (repeat (a ++ b) k) ++ a.
Proof.
  induction k as [|k IH]; cbn [repeat concat].
  - rewrite app_nil_r. reflexivity.
  - rewrite <- !app_assoc, <- IH. reflexivity.
Qed.


Lemma length_greeting (name : str) :
  length (greeting name) = (length name + 8)%nat.
Proof.
  unfold greeting. rewrite !length_app. cbn [of_string length]. lia.
Qed.

(** X7. Greetings add up: for [m, n >= 1], the greeting repeated [m + n]
    times is the one repeated [m] times, a space, and the one repeated [n]
    times. *)
Theorem example_function_add (name : str) (m n : Z) :
  1 <= m -> 1 <= n ->
  exists left right,
    example_function name m = Ok left
    /\ example_function name n = Ok right
    /\ example_function name (m + n) = Ok (left ++ of_string " " ++ right).
Proof.
  intros Hm Hn.
  rewrite !example_function_closed by lia.
  do 2 eexists. split; [reflexivity|]. split; [reflexivity|]. f_equal.
  replace (Z.to_nat (m + n - 1))
    with (Z.to_nat (m - 1) + S (Z.to_nat (n - 1)))%nat by lia.
  rewrite repeat_app, concat_app. cbn [repeat concat].
  rewrite <- !app_assoc. reflexivity.
Qed.

Lemma example_function_add_witness :
  1 <= 1 /\ 1 <= 2
  /\ exists left right,
       example_function (of_string "Bob") 1 = Ok left
       /\ example_function (of_string "Bob") 2 = Ok right
       /\ example_function (of_string "Bob") (1 + 2)
          = Ok (left ++ of_string " " ++ right).
Proof.
  split; [lia|]. split; [lia|].
  apply (example_function_add (of_string "Bob") 1 2); lia.
Defined.

(** X8. For a fixed count [n >= 1] the result determines the name: two names
    with the same result are the same name. *)
Theorem example_function_injective (a b : str) (n : Z) :
  1 <= n -> example_function a n = example_function b n -> a = b.
Proof.
  intros Hn Heq.
  rewrite !example_function_closed in Heq by assumption.
  apply Ok_inj in Heq.
  assert (Hlen : length a = length b).
  { pose proof (f_equal (@length Z) Heq) as Hl.
    rewrite !length_app, !length_concat_repeat, !length_app in Hl.
    rewrite !length_greeting in Hl. cbn [of_string length] in Hl. nia. }
  unfold greeting in Heq. rewrite <- !app_assoc in Heq.
  apply app_inv_head in Heq.
  apply (app_inj_1 _ _ _ _ Hlen) in Heq as [Hab _]. exact Hab.
Qed.

Lemma example_function_injective_witness :
  1 <= 2
  /\ example_function (of_string "Bob") 2 = example_function (of_string "Bob") 2
  /\ of_string "Bob" = of_string "Bob".
Proof.
  split; [lia|]. split; [reflexivity|].
  apply (example_function_injective (of_string "Bob") (of_string "Bob") 2);
    [lia | reflexivity].
Defined.

(** X9. The result does not determine the count: for [n >= 1], the greeting
    of [name] repeated [n] times is returned, and it is also the single
    greeting of a longer name, [name] followed by [n - 1] copies of
    ["! Hello, " + name]. *)
Theorem example_function_absorbs_count (name : str) (n : Z) :
  1 <= n ->
  exists text,
    example_function name n = Ok text
    /\ example_function
         (name
          ++ concat (repeat (of_string "! Hello, " ++ name) (Z.to_nat (n - 1))))
         1
       = Ok text.
Proof.
  intros Hn. rewrite !example_function_closed by lia.
  eexists. split; [reflexivity|]. f_equal.
  change (Z.to_nat (1 - 1)) with 0%nat. cbn [repeat concat].
  rewrite app_nil_r. unfold greeting.
  set (k := Z.to_nat (n - 1)).
  replace (of_string " " ++ of_string "Hello, " ++ name ++ of_string "!")
    with ((of_string " Hello, " ++ name) ++ of_string "!")
    by (rewrite <- app_assoc; reflexivity).
  rewrite <- !app_assoc. do 2 f_equal. symmetry.
  rewrite (app_assoc (of_string " Hello, ") name (of_string "!")).
  exact (concat_repeat_shift (of_string "!") (of_string " Hello, " ++ name) k).
Qed.

Lemma example_function_absorbs_count_witness :
  1 <= 2
  /\ exists text,
       example_function (of_string "x") 2 = Ok text
       /\ example_function (of_string "x! Hello, x") 1 = Ok text.
Proof.
  split; [lia|].
  apply (example_function_absorbs_count (of_string "x") 2). lia.
Defined.

(** X10. For [n >= 1] a text is returned that starts with ["Hello, " + name]
    and ends with [name + "!"]. *)
Theorem example_function_starts_ends (name : str) (n : Z) :
  1 <= n ->
  exists text,
    example_function name n = Ok text
    /\ (of_string "Hello, " ++ name) `prefix_of` text
    /\ (name ++ of_string "!") `suffix_of` text.
Proof.
  intros Hn. rewrite (example_function_closed name n Hn).
  eexists. split; [reflexivity|]. split.
  - unfold greeting. eexists. rewrite <- !app_assoc. reflexivity.
  - rewrite concat_repeat_shift. unfold greeting at 2.
    eexists. rewrite !app_assoc. reflexivity.
Qed.

Lemma example_function_starts_ends_witness :
  1 <= 2
  /\ exists text,
       example_function (of_string "Bob") 2 = Ok text
       /\ (of_string "Hello, " ++ of_string "Bob") `prefix_of` text
       /\ (of_string "Bob" ++ of_string "!") `suffix_of` text.
Proof.
  split; [lia|].
  apply (example_function_starts_ends (of_string "Bob") 2). lia.
Defined.


